(** * Types4YAML: the validator of [types4yaml.py], embedded and checked

    The module is Python 2 ([basestring], [xrange], [long],
    [t.items()[0]]).  Every method of class [Type] is embedded as it is
    written, over a small model of the Python objects it touches: decoded
    JSON/YAML values, the exceptions the interpreter raises, and the mutable
    attribute [self.ctxt].

    Three facts about the source shape the whole development:
    - the module imports only [yaml]; the names [re], [s] and [modify] are
      bound nowhere, so evaluating them raises [NameError];
    - [Type.valid] calls [getattr(m, x, v)] on the *string* [m]: it looks up
      an attribute of a [str] object and never reaches a [valid_*] method;
    - [valid_dict] and [valid_d_u] stop at an [# XXX] marker.

    Each kind's rule is stated on the method that implements it
    ([valid_dict], [valid_union], ...); the dispatcher [valid] is stated on
    its own.  Lines 257 and 267 of the source lack the colon that ends an
    [if] header, so the text of [valid_list] and [valid_tuple] is no
    function at all; these two methods are not embedded.  Every other
    method is embedded from its own text, which is intact. *)

From Stdlib Require Import List String Ascii ZArith Bool Lia Permutation.
Import ListNotations.
Open Scope string_scope.
Set Warnings "-register-all".

(** ** Python objects *)

Module Py.

(** A decoded document: what [yaml.load] hands over, plus the native tuple
    that [valid_list] and [valid_tuple] also admit.  Mapping keys are
    strings, listed in iteration order.  Strings are byte strings ([str]);
    numbers are integers ([int], [long]).  Floats are left out: every test
    the methods below make ([isinstance(x, basestring)],
    [type(x) != type({})], the attribute-name check of [getattr]) treats a
    float as it treats an integer. *)
Inductive value : Type :=
| VNone
| VBool (b : bool)
| VInt (n : Z)
| VStr (s : string)
| VList (l : list value)
| VTuple (l : list value)
| VDict (kvs : list (string * value)).

(** What an expression of the module can evaluate to: a document value, an
    attribute fetched from a [str] object, or an object bound to a
    module-level name. *)
Inductive pyobj : Type :=
| Val (v : value)
| StrAttr (self name : string)
| Global (name : string).

Inductive exn : Type :=
| NameError (name : string)
| AttributeError (name : string)
| TypeError
| AssertionError
| KeyError
| IndexError.

Inductive outcome (A : Type) : Type :=
| Return (a : A)
| Raise (e : exn).
Arguments Return {A} a.
Arguments Raise {A} e.

Definition PyTrue : pyobj := Val (VBool true).
Definition PyFalse : pyobj := Val (VBool false).
Definition PyNone : pyobj := Val VNone.

(** Truth value of an object in an [if]. *)
Definition truthy (o : pyobj) : bool :=
  match o with
  | Val VNone => false
  | Val (VBool b) => b
  | Val (VInt n) => negb (n =? 0)%Z
  | Val (VStr s) => negb (s =? "")
  | Val (VList l) | Val (VTuple l) => negb (List.length l =? 0)%nat
  | Val (VDict kvs) => negb (List.length kvs =? 0)%nat
  | StrAttr _ _ => true
  | Global _ => true
  end.

(** [isinstance(x, basestring)] *)
Definition isinstance_basestring (x : value) : bool :=
  match x with VStr _ => true | _ => false end.

(** [type(x) == type({})] *)
Definition is_dict (x : value) : bool :=
  match x with VDict _ => true | _ => false end.

(** [type(x) == type([]) or type(x) == type((1,2))] *)
Definition is_list_or_tuple (x : value) : bool :=
  match x with VList _ | VTuple _ => true | _ => false end.

Fixpoint dict_get (k : string) (kvs : list (string * value)) : option value :=
  match kvs with
  | [] => None
  | (k', v) :: rest => if k =? k' then Some v else dict_get k rest
  end.

Definition dict_has (k : string) (kvs : list (string * value)) : bool :=
  match dict_get k kvs with Some _ => true | None => false end.

(** A list or a dict cannot be hashed, nor can a tuple that holds one. *)
Fixpoint hashable (v : value) : bool :=
  match v with
  | VList _ | VDict _ => false
  | VTuple l => (fix all (l : list value) : bool :=
                   match l with
                   | [] => true
                   | a :: r => hashable a && all r
                   end) l
  | _ => true
  end.

(** [a == b]: [True] and [False] compare as 1 and 0, sequences element by
    element, mappings key by key whatever their order. *)
Fixpoint py_eq (a b : value) {struct a} : bool :=
  let seq_eq :=
    fix seq_eq (l l' : list value) {struct l} : bool :=
      match l, l' with
      | [], [] => true
      | x :: r, y :: r' => py_eq x y && seq_eq r r'
      | _, _ => false
      end in
  match a, b with
  | VNone, VNone => true
  | VBool p, VBool q => Bool.eqb p q
  | VBool p, VInt n => ((if p then 1 else 0) =? n)%Z
  | VInt n, VBool q => (n =? (if q then 1 else 0))%Z
  | VInt n, VInt m => (n =? m)%Z
  | VStr s, VStr s' => s =? s'
  | VList l, VList l' => seq_eq l l'
  | VTuple l, VTuple l' => seq_eq l l'
  | VDict kvs, VDict kvs' =>
      (List.length kvs =? List.length kvs')%nat &&
      (fix sub (m : list (string * value)) : bool :=
         match m with
         | [] => true
         | (k, v) :: r =>
             match dict_get k kvs' with
             | Some v' => py_eq v v' && sub r
             | None => false
             end
         end) kvs
  | _, _ => false
  end.

(** [len(v)] *)
Definition py_len (v : value) : outcome nat :=
  match v with
  | VStr s => Return (String.length s)
  | VList l | VTuple l => Return (List.length l)
  | VDict kvs => Return (List.length kvs)
  | _ => Raise TypeError
  end.

Fixpoint chars (s : string) : list value :=
  match s with
  | EmptyString => []
  | String c r => VStr (String c EmptyString) :: chars r
  end.

(** The items a [for] loop over [v] visits: elements, characters, keys. *)
Definition py_iter (v : value) : outcome (list value) :=
  match v with
  | VStr s => Return (chars s)
  | VList l | VTuple l => Return l
  | VDict kvs => Return (map (fun kv => VStr (fst kv)) kvs)
  | _ => Raise TypeError
  end.

(** Position [i] of a sequence of [n] items; negative indices count from
    the end. *)
Definition seq_index (n : nat) (i : Z) : option nat :=
  if ((0 <=? i) && (i <? Z.of_nat n))%Z then Some (Z.to_nat i)
  else if ((- Z.of_nat n <=? i) && (i <? 0))%Z then Some (Z.to_nat (Z.of_nat n + i))
  else None.

Definition as_index (k : value) : option Z :=
  match k with
  | VInt i => Some i
  | VBool b => Some (if b then 1 else 0)%Z
  | _ => None
  end.

(** [c[k]] *)
Definition py_getitem (c k : value) : outcome value :=
  match c with
  | VList l | VTuple l =>
      match as_index k with
      | Some i =>
          match seq_index (List.length l) i with
          | Some p => match nth_error l p with
                      | Some v => Return v
                      | None => Raise IndexError
                      end
          | None => Raise IndexError
          end
      | None => Raise TypeError
      end
  | VStr s =>
      match as_index k with
      | Some i =>
          match seq_index (String.length s) i with
          | Some p => match String.get p s with
                      | Some ch => Return (VStr (String ch EmptyString))
                      | None => Raise IndexError
                      end
          | None => Raise IndexError
          end
      | None => Raise TypeError
      end
  | VDict kvs =>
      if hashable k then
        match k with
        | VStr s => match dict_get s kvs with
                    | Some v => Return v
                    | None => Raise KeyError
                    end
        | _ => Raise KeyError
        end
      else Raise TypeError
  | _ => Raise TypeError
  end.

(** [k in c] *)
Definition py_contains (k c : value) : outcome bool :=
  match c with
  | VList l | VTuple l => Return (existsb (py_eq k) l)
  | VStr s =>
      match k with
      | VStr sub => Return (match String.index 0 sub s with
                            | Some _ => true
                            | None => false
                            end)
      | _ => Raise TypeError
      end
  | VDict kvs =>
      if hashable k then
        Return (match k with VStr s => dict_has s kvs | _ => false end)
      else Raise TypeError
  | _ => Raise TypeError
  end.

(** The attributes of a Python 2 [str] object. *)
Definition str_attributes : list string :=
  [ "__add__"; "__class__"; "__contains__"; "__delattr__"; "__doc__";
    "__eq__"; "__format__"; "__ge__"; "__getattribute__"; "__getitem__";
    "__getnewargs__"; "__getslice__"; "__gt__"; "__hash__"; "__init__";
    "__le__"; "__len__"; "__lt__"; "__mod__"; "__mul__"; "__ne__";
    "__new__"; "__reduce__"; "__reduce_ex__"; "__repr__"; "__rmod__";
    "__rmul__"; "__setattr__"; "__sizeof__"; "__str__";
    "__subclasshook__"; "_formatter_field_name_split";
    "_formatter_parser"; "capitalize"; "center"; "count"; "decode";
    "encode"; "endswith"; "expandtabs"; "find"; "format"; "index";
    "isalnum"; "isalpha"; "isdigit"; "islower"; "isspace"; "istitle";
    "isupper"; "join"; "ljust"; "lower"; "lstrip"; "partition"; "replace";
    "rfind"; "rindex"; "rjust"; "rpartition"; "rsplit"; "rstrip"; "split";
    "splitlines"; "startswith"; "strip"; "swapcase"; "title"; "translate";
    "upper"; "zfill" ].

Definition str_has_attr (name : string) : bool :=
  existsb (String.eqb name) str_attributes.

(** [getattr(m, name, default)] for a string [m]: the attribute of the
    [str] object when it has one of that name, [default] when it has not,
    [TypeError] when [name] is not a string. *)
Definition getattr_str (m : string) (name : value) (default : pyobj)
  : outcome pyobj :=
  match name with
  | VStr a => if str_has_attr a then Return (StrAttr m a) else Return default
  | _ => Raise TypeError
  end.

(** The names the module binds at its top level.  No builtin is called
    [re], [s] or [modify]. *)
Definition module_names : list string :=
  [ "__name__"; "__doc__"; "__file__"; "__package__"; "__builtins__";
    "__docformat__"; "yaml"; "type_definition_of_types"; "BadType";
    "WrongType"; "Type"; "make_type" ].

(** Evaluating a name that no enclosing function assigns. *)
Definition global_name (n : string) : outcome pyobj :=
  if existsb (String.eqb n) module_names then Return (Global n)
  else Raise (NameError n).

(** [g.attr] for an object bound at module level: none of them carries the
    one attribute the methods ask for, [match]. *)
Definition getattr_global (g : pyobj) (attr : string) : outcome pyobj :=
  Raise (AttributeError attr).

End Py.
Export Py.

(** ** class [Type] *)

Module Types4Yaml.

(** The decoded [type_definition_of_types] document (the YAML text bound at
    lines 147-172), keys in the order the text lists them. *)
Definition named_ (n : string) : value := VDict [("named", VStr n)].

Definition type_definition_of_types : value :=
  VDict [("with", VList [
    VDict [
      ("dictionary", VDict [("dict", VDict [("*", named_ "type")])]);
      ("types", VDict [("list", named_ "type")]);
      ("type", VDict [("union", VList [
         VDict [("oneof", VList [VStr "any"; VStr "string"; VStr "date";
                                 VStr "time"; VStr "datetime"; VStr "number"])];
         VDict [("dict", VDict [("d_u", VDict [
           ("oneof", VDict [("list", VStr "string")]);
           ("string", VStr "string");
           ("list", named_ "type");
           ("tuple", named_ "types");
           ("dict", named_ "dictionary");
           ("union", named_ "types");
           ("d_u", named_ "dictionary");
           ("with", VDict [("tuple", VList [named_ "dictionary"; named_ "type"])]);
           ("named", VStr "string")])])]])])];
    named_ "type"])].

(** An instance: [self._type] and the list [self.ctxt], oldest frame
    first, as [append] and [pop] keep it. *)
Record Type_ : Type := mkType { _type : value; ctxt : list value }.

(** [Type(_type)] *)
Definition init (t : value) : Type_ := mkType t [].

(** A method body: it may change [self] and either returns or raises; what
    it did to [self] before raising stays done. *)
Definition M (A : Type) : Type := Type_ -> outcome A * Type_.

Definition ret {A} (a : A) : M A := fun self => (Return a, self).
Definition raise {A} (e : exn) : M A := fun self => (Raise e, self).
Definition lift {A} (o : outcome A) : M A := fun self => (o, self).
Definition bind {A B} (c : M A) (k : A -> M B) : M B :=
  fun self =>
    match c self with
    | (Return a, self') => k a self'
    | (Raise e, self') => (Raise e, self')
    end.

Notation "x <- c ;; k" := (bind c (fun x => k))
  (at level 61, c at next level, right associativity).
Notation "c ;;; k" := (bind c (fun _ => k))
  (at level 61, right associativity).

(** [try: body  except: handler] with a bare [except], which catches
    whatever [body] raises. *)
Definition try_except {A} (body handler : M A) : M A :=
  fun self =>
    match body self with
    | (Return a, self') => (Return a, self')
    | (Raise _, self') => handler self'
    end.

(** A [for] loop whose body either executes [return v] ([Some v]) or falls
    through to the next item ([None]); [after] is the code below the loop. *)
Fixpoint for_each {A} (items : list A) (body : A -> M (option pyobj))
    (after : M pyobj) : M pyobj :=
  match items with
  | [] => after
  | a :: rest =>
      r <- body a ;;
      match r with
      | Some v => ret v
      | None => for_each rest body after
      end
  end.

Definition ctxt_append (defs : value) : M unit :=
  fun self => (Return tt, mkType (_type self) (ctxt self ++ [defs])).

Definition ctxt_pop : M unit :=
  fun self =>
    match ctxt self with
    | [] => (Raise IndexError, self)
    | _ => (Return tt, mkType (_type self) (removelast (ctxt self)))
    end.

(** [re.match(pattern, subject)]: the callee [re.match] is evaluated
    first, then the arguments, then the call is made.  The callee never
    evaluates (see [global_name] and [getattr_global]), so the last line
    stands for a call that cannot happen: no object of this model is a
    function of two arguments. *)
Definition re_match (pattern : value) (subject : M pyobj) : M pyobj :=
  re <- lift (global_name "re") ;;
  mt <- lift (getattr_global re "match") ;;
  s <- subject ;;
  raise TypeError.

(** [valid] (lines 190-202).  A [None] for [t] stands for [self._type]. *)
Definition valid (x t : value) : M pyobj :=
  fun self =>
    let t := match t with VNone => _type self | _ => t end in
    match t with
    | VStr s =>
        let m := "valid_" ++ s in
        (modify <- lift (global_name "modify") ;;
         lift (getattr_str m x modify)) self
    | VDict [(k, v)] =>
        let m := "valid_" ++ k in
        lift (getattr_str m x (Val v)) self
    | _ => raise AssertionError self
    end.

(** [valid_string] (lines 243-251); the one-argument definition of lines
    204-207 is replaced by this one when the class body runs. *)
Definition valid_string (x t : value) : M pyobj :=
  if negb (isinstance_basestring x) then ret PyFalse
  else
    try_except
      (m <- re_match t (ret (Val x)) ;;
       if truthy m then ret PyTrue else ret PyFalse)
      (ret PyFalse).

(** [valid_date] (lines 209-213): no [return] after the [if]. *)
Definition valid_date (x : value) : M pyobj :=
  if negb (isinstance_basestring x) then ret PyFalse
  else
    m <- re_match (VStr "\d\d\d\d/\d\d/\d\d$") (lift (global_name "s")) ;;
    if truthy m then ret PyTrue else ret PyNone.

(** [valid_time] (lines 215-220) *)
Definition valid_time (x : value) : M pyobj :=
  if negb (isinstance_basestring x) then ret PyFalse
  else
    m <- re_match (VStr "\d\d:\d\d:\d\d$") (lift (global_name "s")) ;;
    if truthy m then ret PyTrue else ret PyFalse.

(** [valid_datetime] (lines 222-227) *)
Definition valid_datetime (x : value) : M pyobj :=
  if negb (isinstance_basestring x) then ret PyFalse
  else
    m <- re_match (VStr "\d\d\d\d/\d\d/\d\d \d\d:\d\d:\d\d$")
           (lift (global_name "s")) ;;
    if truthy m then ret PyTrue else ret PyFalse.

(** [isinstance(x, (int, long, float))]: a boolean is an [int]. *)
Definition isinstance_number (x : value) : bool :=
  match x with VBool _ | VInt _ => true | _ => false end.

(** [valid_number] (lines 229-236).  [float_parses s] says whether the
    builtin [float] accepts the text [s]; the builtin raises [ValueError]
    on a text it does not accept, which the [except ValueError] clause
    turns into [False], and [TypeError] on what is neither text nor
    number, which no clause catches. *)
Definition valid_number (float_parses : string -> bool) (x : value)
  : M pyobj :=
  if isinstance_number x then ret PyTrue
  else
    match x with
    | VStr s => if float_parses s then ret PyTrue else ret PyFalse
    | _ => raise TypeError
    end.

(** [valid_oneof] (lines 238-241) *)
Definition valid_oneof (x t : value) : M pyobj :=
  if negb (isinstance_basestring x) then ret PyFalse
  else b <- lift (py_contains x t) ;; ret (Val (VBool b)).

(** [valid_dict] (lines 271-275): nothing follows the type test but the
    [# XXX] marker. *)
Definition valid_dict (x t : value) : M pyobj :=
  if negb (is_dict x) then ret PyFalse
  else ret PyTrue.

(** [valid_d_u] (lines 277-281): the same. *)
Definition valid_d_u (x t : value) : M pyobj :=
  if negb (is_dict x) then ret PyFalse
  else ret PyTrue.

(** [valid_union] (lines 283-287) *)
Definition valid_union (x t : value) : M pyobj :=
  us <- lift (py_iter t) ;;
  for_each us
    (fun u => r <- valid x u ;;
              if truthy r then ret (Some PyTrue) else ret None)
    (ret PyFalse).

(** [valid_with] (lines 289-296) *)
Definition valid_with (x t : value) : M pyobj :=
  n <- lift (py_len t) ;;
  if negb (n =? 2)%nat then raise AssertionError
  else
    defs <- lift (py_getitem t (VInt 0)) ;;
    u <- lift (py_getitem t (VInt 1)) ;;
    ctxt_append defs ;;;
    r <- valid x u ;;
    ctxt_pop ;;;
    ret r.

(** [valid_named] (lines 298-302): the loop runs over [self.ctxt] from its
    first item. *)
Definition valid_named (x t : value) : M pyobj :=
  fun self =>
    for_each (ctxt self)
      (fun defs =>
         b <- lift (py_contains t defs) ;;
         if b then
           u <- lift (py_getitem defs t) ;;
           r <- valid x u ;;
           ret (Some r)
         else ret None)
      (ret PyFalse) self.

End Types4Yaml.
Export Types4Yaml.

(** ** What the specification asks of the unfinished rules

    The two rules the source leaves at [# XXX], written out from the
    specification's words so that the code can be compared with them.  [ok v ty]
    stands for "value [v] is valid against type [ty]". *)

Module Spec.

(** [name?] names the optional key [name]. *)
Fixpoint optional_name (k : string) : option string :=
  match k with
  | EmptyString => None
  | String c EmptyString => if (c =? "?")%char then Some EmptyString else None
  | String c r => option_map (String c) (optional_name r)
  end.

(** A plain key of the payload: neither the wildcard nor a [?] key. *)
Definition plain_key (k : string) : bool :=
  negb (k =? "*") &&
  match optional_name k with Some _ => false | None => true end.

(** A data key is explicitly named when the payload has it as a plain key
    or has it with the [?] suffix. *)
Definition explicitly_named (payload : list (string * value)) (dk : string)
  : bool :=
  (plain_key dk && dict_has dk payload) || dict_has (dk ++ "?") payload.

(** The dict key-matching rule. *)
Definition dict_rule (ok : value -> value -> bool)
    (payload data : list (string * value)) : bool :=
  forallb
    (fun kt : string * value =>
       let (k, ty) := kt in
       if k =? "*" then true
       else match optional_name k with
            | Some name =>
                match dict_get name data with
                | Some v => ok v ty
                | None => true
                end
            | None =>
                match dict_get k data with
                | Some v => ok v ty
                | None => false
                end
            end)
    payload
  &&
  forallb
    (fun dv : string * value =>
       let (dk, v) := dv in
       explicitly_named payload dk ||
       match dict_get "*" payload with
       | Some ty => ok v ty
       | None => false
       end)
    data.

(** The discriminated-union rule: exactly one key, a tag of the payload,
    its value valid against the tag's type. *)
Definition d_u_rule (ok : value -> value -> bool)
    (payload data : list (string * value)) : bool :=
  match data with
  | [(k, v)] =>
      match dict_get k payload with
      | Some ty => ok v ty
      | None => false
      end
  | _ => false
  end.

End Spec.

(** ** Vocabulary of the statements *)

(** [self] after [self.ctxt.append(defs)]. *)
Definition pushed (self : Type_) (defs : value) : Type_ :=
  mkType (_type self) (ctxt self ++ [defs]).

(** A frame that is a mapping without the key [name]. *)
Definition lacks (name : string) (frame : value) : Prop :=
  exists kvs, frame = VDict kvs /\ dict_get name kvs = None.

(** The body of the loop of [valid_named], named for the proofs. *)
Definition named_step (x t : value) (defs : value) : M (option pyobj) :=
  b <- lift (py_contains t defs) ;;
  if b then
    u <- lift (py_getitem defs t) ;;
    r <- valid x u ;;
    ret (Some r)
  else ret None.

(** The member evaluation returns, with a truthy result. *)
Definition accepts (x u : value) (self : Type_) : Prop :=
  exists r, valid x u self = (Return r, self) /\ truthy r = true.

(** The member evaluation returns at all. *)
Definition returns (x u : value) (self : Type_) : Prop :=
  exists r, valid x u self = (Return r, self).

(** [accepts] as a boolean. *)
Definition member_ok (x : value) (self : Type_) (u : value) : bool :=
  match fst (valid x u self) with
  | Return r => truthy r
  | Raise _ => false
  end.

(** The body of the loop of [valid_union], named for the proofs. *)
Definition union_step (x : value) (u : value) : M (option pyobj) :=
  r <- valid x u ;;
  if truthy r then ret (Some PyTrue) else ret None.

(** The member evaluation returns, with a falsy result. *)
Definition rejects (x u : value) (self : Type_) : Prop :=
  exists r, valid x u self = (Return r, self) /\ truthy r = false.

(** The type [valid] works on: [self._type] when it is handed [None]. *)
Definition resolved (t : value) (self : Type_) : value :=
  match t with VNone => _type self | _ => t end.

(** ** Properties *)

(** *** Names and the dispatcher *)

Lemma re_is_unbound : global_name "re" = Raise (NameError "re").
Proof. reflexivity. Qed.

Lemma modify_is_unbound : global_name "modify" = Raise (NameError "modify").
Proof. reflexivity. Qed.

(** [re.match(...)] raises before either argument is looked at. *)
Lemma re_match_raises :
  forall (pattern : value) (subject : M pyobj) (self : Type_),
    re_match pattern subject self = (Raise (NameError "re"), self).
Proof. intros pattern subject self. reflexivity. Qed.

(** Every atomic tag, known or not, takes [valid] to the unbound name. *)
Lemma valid_atomic :
  forall (x : value) (tag : string) (self : Type_),
    valid x (VStr tag) self = (Raise (NameError "modify"), self).
Proof. intros x tag self. reflexivity. Qed.

(** On a single-key node [valid] answers with an attribute of the string
    ['valid_' + k] or with the payload itself. *)
Lemma valid_constructed :
  forall (x : value) (k : string) (v : value) (self : Type_),
    valid x (VDict [(k, v)]) self = (getattr_str ("valid_" ++ k) x (Val v), self).
Proof. intros x k v self. reflexivity. Qed.

(** [valid] never touches [self]. *)
Lemma valid_keeps_self :
  forall (x t : value) (self : Type_), snd (valid x t self) = self.
Proof.
  intros x t self. unfold valid.
  destruct (match t with VNone => _type self | _ => t end) as
    [ | b | n | s | l | l | kvs ]; try reflexivity.
  destruct kvs as [ | [k v] [ | kv' rest ] ]; reflexivity.
Qed.

Lemma valid_outcome :
  forall (x t : value) (self : Type_),
    valid x t self = (fst (valid x t self), self).
Proof.
  intros x t self. rewrite <- (valid_keeps_self x t self) at 3.
  apply surjective_pairing.
Qed.

(** *** The atomic and regex rules *)

Lemma valid_string_always_false :
  forall (x t : value) (self : Type_),
    valid_string x t self = (Return PyFalse, self).
Proof.
  intros x t self. unfold valid_string.
  destruct (isinstance_basestring x); simpl; [ | reflexivity ].
  unfold try_except, bind. rewrite re_match_raises. reflexivity.
Qed.

Lemma valid_time_on_strings :
  forall (s : string) (self : Type_),
    valid_time (VStr s) self = (Raise (NameError "re"), self).
Proof. intros s self. reflexivity. Qed.

Lemma valid_date_on_strings :
  forall (s : string) (self : Type_),
    valid_date (VStr s) self = (Raise (NameError "re"), self).
Proof. intros s self. reflexivity. Qed.

(** C1.  The claim: on a well-formed type expression [valid] returns a
    boolean, [False] for data that does not conform, and raises only for a
    malformed type expression.  The code, at the data ["2024-05-01"] and
    the well-formed type ["date"]: the top-level call raises [NameError]
    for the unbound [modify], and [valid_date] itself raises [NameError]
    for the unbound [re]; none returns [False]. *)
Theorem valid_raises_on_wellformed_date_type :
  valid (VStr "2024-05-01") VNone (init (VStr "date"))
    = (Raise (NameError "modify"), init (VStr "date"))
  /\ valid_date (VStr "2024-05-01") (init (VStr "date"))
    = (Raise (NameError "re"), init (VStr "date")).
Proof. split; reflexivity. Qed.

(** C2.  The claim: validating the Meta-Schema's own raw form against the
    Meta-Schema succeeds.  The code: the Meta-Schema check is the call
    [Type(m).valid(m)] with [m] the decoded [type_definition_of_types];
    [m] is a mapping, [valid] hands it to [getattr] as an attribute name,
    and the call raises [TypeError]. *)
Theorem meta_schema_self_check_raises :
  valid type_definition_of_types VNone (init type_definition_of_types)
    = (Raise TypeError, init type_definition_of_types).
Proof. reflexivity. Qed.

(** *** The unfinished rules *)

Lemma valid_dict_on_mappings :
  forall (kvs : list (string * value)) (t : value) (self : Type_),
    valid_dict (VDict kvs) t self = (Return PyTrue, self).
Proof. intros kvs t self. reflexivity. Qed.

Lemma valid_d_u_on_mappings :
  forall (kvs : list (string * value)) (t : value) (self : Type_),
    valid_d_u (VDict kvs) t self = (Return PyTrue, self).
Proof. intros kvs t self. reflexivity. Qed.

(** C3.  The claim: a mapping is valid against a [dict] type exactly when
    required keys are present and valid, optional keys valid when present,
    and every other key covered by the wildcard.  The code, at the data
    [{"bar": 1}] and the payload [{"foo": "string", "bar?": "number"}]:
    [valid_dict] returns [True], while the rule, whatever "valid against"
    means for the members, rejects the data for its missing key [foo]. *)
Theorem valid_dict_accepts_missing_required_key :
  forall self : Type_,
    valid_dict (VDict [("bar", VInt 1)])
               (VDict [("foo", VStr "string"); ("bar?", VStr "number")]) self
      = (Return PyTrue, self)
    /\ forall ok : value -> value -> bool,
         Spec.dict_rule ok [("foo", VStr "string"); ("bar?", VStr "number")]
                           [("bar", VInt 1)] = false.
Proof. intros self. split; [ reflexivity | intros ok; reflexivity ]. Qed.

(** C4.  The claim: a mapping is valid against a [d_u] type exactly when it
    has one key, a tag of the payload, with a valid value.  The code, at
    the empty mapping and the payload [{"a": "number", "b": "string"}]:
    [valid_d_u] returns [True], while the rule rejects a mapping with no
    key. *)
Theorem valid_d_u_accepts_empty_mapping :
  forall self : Type_,
    valid_d_u (VDict []) (VDict [("a", VStr "number"); ("b", VStr "string")]) self
      = (Return PyTrue, self)
    /\ forall ok : value -> value -> bool,
         Spec.d_u_rule ok [("a", VStr "number"); ("b", VStr "string")] [] = false.
Proof. intros self. split; [ reflexivity | intros ok; reflexivity ]. Qed.

(** C8.  The claim: a string is a valid [time] exactly when it is
    [HH:MM:SS] with an optional [.] and digits.  The code, at
    ["12:34:56.5"]: [valid_time] raises [NameError] where the claim has it
    return [True]. *)
Theorem valid_time_raises_on_fractional_seconds :
  forall self : Type_,
    valid_time (VStr "12:34:56.5") self = (Raise (NameError "re"), self).
Proof. intros self. apply valid_time_on_strings. Qed.

(** C9.  The claim: a [string] node whose pattern does not compile makes
    [valid] return [False] for every data value and never raise.  The
    code, at the node [{"string": "*"}], whose pattern is no regular
    expression: for the data [5] the call raises [TypeError], and for the
    data ["abc"] it returns the pattern ["*"] itself, a truthy value;
    neither is [False]. *)
Theorem valid_on_bad_pattern_is_not_false :
  valid (VInt 5) VNone (init (VDict [("string", VStr "*")]))
    = (Raise TypeError, init (VDict [("string", VStr "*")]))
  /\ valid (VStr "abc") VNone (init (VDict [("string", VStr "*")]))
    = (Return (Val (VStr "*")), init (VDict [("string", VStr "*")]))
  /\ truthy (Val (VStr "*")) = true.
Proof. repeat split. Qed.

(** C10.  The claim: a string is accepted whenever a prefix of it matches
    the pattern.  The code, at the string ["abc"] and the pattern ["a"],
    which the prefix ["a"] matches: [valid_string] returns [False]. *)
Theorem valid_string_rejects_matching_prefix :
  forall self : Type_,
    valid_string (VStr "abc") (VStr "a") self = (Return PyFalse, self).
Proof. intros self. apply valid_string_always_false. Qed.

(** *** Scope frames: [with] *)

Lemma pop_after_push :
  forall (self : Type_) (defs : value),
    ctxt_pop (pushed self defs) = (Return tt, self).
Proof.
  intros [ty fs] defs. unfold ctxt_pop, pushed. simpl.
  destruct (fs ++ [defs])%list eqn:E.
  - destruct fs; discriminate E.
  - rewrite <- E, removelast_last. reflexivity.
Qed.

(** What [valid_with] does once its payload has two items: the inner
    evaluation runs with one more frame; the frame goes when that
    evaluation returns and stays when it raises. *)
Lemma valid_with_unfolded :
  forall (x t defs u : value) (self : Type_),
    py_len t = Return 2%nat ->
    py_getitem t (VInt 0) = Return defs ->
    py_getitem t (VInt 1) = Return u ->
    valid_with x t self =
      match fst (valid x u (pushed self defs)) with
      | Return r => (Return r, self)
      | Raise e => (Raise e, pushed self defs)
      end.
Proof.
  intros x t defs u self Hlen H0 H1.
  unfold valid_with, bind, lift. rewrite Hlen. simpl. rewrite H0, H1.
  unfold ctxt_append. fold (pushed self defs).
  rewrite (valid_outcome x u (pushed self defs)).
  destruct (fst (valid x u (pushed self defs))) as [r | e]; simpl.
  - rewrite pop_after_push. reflexivity.
  - reflexivity.
Qed.

Lemma valid_with_raise_keeps_frame :
  forall (x t defs u : value) (self : Type_) (e : exn),
    py_len t = Return 2%nat ->
    py_getitem t (VInt 0) = Return defs ->
    py_getitem t (VInt 1) = Return u ->
    valid x u (pushed self defs) = (Raise e, pushed self defs) ->
    valid_with x t self = (Raise e, pushed self defs).
Proof.
  intros x t defs u self e Hlen H0 H1 Hin.
  rewrite (valid_with_unfolded x t defs u self Hlen H0 H1), Hin.
  reflexivity.
Qed.

(** C5, as the claim states it, fails: the inner type [{"a": .., "b": ..}]
    has two keys, the inner evaluation aborts on the assertion, and the
    frame [{"n": "number"}] is still on the stack afterwards. *)
Lemma valid_with_leaves_frame_on_schema_error :
  valid_with (VStr "abc")
             (VList [VDict [("n", VStr "number")];
                     VDict [("a", VStr "any"); ("b", VStr "any")]])
             (init (VStr "any"))
    = (Raise AssertionError,
       mkType (VStr "any") [VDict [("n", VStr "number")]])
  /\ ctxt (snd (valid_with (VStr "abc")
             (VList [VDict [("n", VStr "number")];
                     VDict [("a", VStr "any"); ("b", VStr "any")]])
             (init (VStr "any")))) <> [].
Proof. split; [ reflexivity | discriminate ]. Qed.

Lemma push_changes_stack :
  forall (self : Type_) (defs : value), ctxt (pushed self defs) <> ctxt self.
Proof.
  intros self defs H. apply (f_equal (@List.length value)) in H.
  unfold pushed in H. simpl in H. rewrite length_app in H. simpl in H. lia.
Qed.

Lemma valid_with_return_inverted :
  forall (x t : value) (self self' : Type_) (r : pyobj),
    valid_with x t self = (Return r, self') ->
    self' = self
    /\ exists defs u : value,
         py_len t = Return 2%nat
         /\ py_getitem t (VInt 0) = Return defs
         /\ py_getitem t (VInt 1) = Return u
         /\ valid x u (pushed self defs) = (Return r, pushed self defs).
Proof.
  intros x t self self' r H.
  destruct (py_len t) as [n | e] eqn:Hlen;
    [ | unfold valid_with, bind, lift in H; rewrite Hlen in H; discriminate H ].
  destruct (Nat.eqb n 2) eqn:Hn;
    [ | unfold valid_with, bind, lift in H; rewrite Hlen in H; simpl in H;
        rewrite Hn in H; discriminate H ].
  apply Nat.eqb_eq in Hn. subst n.
  destruct (py_getitem t (VInt 0)) as [defs | e] eqn:H0;
    [ | unfold valid_with, bind, lift in H; rewrite Hlen in H; simpl in H;
        rewrite H0 in H; discriminate H ].
  destruct (py_getitem t (VInt 1)) as [u | e] eqn:H1;
    [ | unfold valid_with, bind, lift in H; rewrite Hlen in H; simpl in H;
        rewrite H0, H1 in H; discriminate H ].
  rewrite (valid_with_unfolded x t defs u self Hlen H0 H1) in H.
  destruct (fst (valid x u (pushed self defs))) as [r' | e] eqn:Hin;
    [ | discriminate H ].
  injection H as Hr Hs. subst r' self'.
  split; [ reflexivity | ].
  exists defs, u. repeat split; try reflexivity.
  rewrite (valid_outcome x u (pushed self defs)), Hin. reflexivity.
Qed.

(** C5, amended.  A [with] evaluation on a two-item payload [[defs, u]]
    runs the inner evaluation on the stack with exactly one more frame,
    [defs], on top.  When the inner evaluation returns a value, truthy or
    not, [valid_with] returns that value with [self], hence the stack, as
    it found it; when the inner evaluation raises, [valid_with] raises the
    same error and the frame [defs] is still on the stack, which therefore
    differs from the one it found.  Conversely [valid_with] returns a
    value in no other way. *)
Theorem valid_with_pops_on_return_keeps_frame_on_error :
  forall (x t : value) (self : Type_),
    (forall (defs u : value),
        py_len t = Return 2%nat ->
        py_getitem t (VInt 0) = Return defs ->
        py_getitem t (VInt 1) = Return u ->
        ctxt (pushed self defs) = (ctxt self ++ [defs])%list
        /\ (forall r : pyobj,
              valid x u (pushed self defs) = (Return r, pushed self defs) ->
              valid_with x t self = (Return r, self))
        /\ (forall e : exn,
              valid x u (pushed self defs) = (Raise e, pushed self defs) ->
              valid_with x t self = (Raise e, pushed self defs)
              /\ ctxt (snd (valid_with x t self)) <> ctxt self))
    /\ (forall (self' : Type_) (r : pyobj),
          valid_with x t self = (Return r, self') ->
          self' = self
          /\ exists defs u : value,
               py_len t = Return 2%nat
               /\ py_getitem t (VInt 0) = Return defs
               /\ py_getitem t (VInt 1) = Return u
               /\ valid x u (pushed self defs) = (Return r, pushed self defs)).
Proof.
  intros x t self. split.
  - intros defs u Hlen H0 H1.
    split; [ reflexivity | ]. split.
    + intros r Hin.
      rewrite (valid_with_unfolded x t defs u self Hlen H0 H1), Hin.
      reflexivity.
    + intros e Hin.
      rewrite (valid_with_raise_keeps_frame x t defs u self e Hlen H0 H1 Hin).
      split; [ reflexivity | apply push_changes_stack ].
  - intros self' r H. apply (valid_with_return_inverted x t self self' r H).
Qed.

Lemma valid_with_pops_on_return_keeps_frame_on_error_witness :
  valid_with (VStr "abc") (VList [VDict [("n", VStr "number")]; named_ "n"])
             (init (VStr "any"))
    = (Return (Val (VStr "n")), init (VStr "any"))
  /\ valid_with (VInt 5) (VList [VDict [("n", VStr "number")]; named_ "n"])
                (init (VStr "any"))
    = (Raise TypeError,
       pushed (init (VStr "any")) (VDict [("n", VStr "number")])).
Proof.
  split.
  - apply (proj1 (proj2 (proj1
             (valid_with_pops_on_return_keeps_frame_on_error (VStr "abc")
                (VList [VDict [("n", VStr "number")]; named_ "n"])
                (init (VStr "any")))
             (VDict [("n", VStr "number")]) (named_ "n")
             eq_refl eq_refl eq_refl))).
    reflexivity.
  - apply (proj1 (proj2 (proj2 (proj1
             (valid_with_pops_on_return_keeps_frame_on_error (VInt 5)
                (VList [VDict [("n", VStr "number")]; named_ "n"])
                (init (VStr "any")))
             (VDict [("n", VStr "number")]) (named_ "n")
             eq_refl eq_refl eq_refl)) TypeError eq_refl)).
Defined.

(** *** Scope frames: [named] *)

Lemma valid_named_loop :
  forall (x t : value) (self : Type_),
    valid_named x t self
      = for_each (ctxt self) (named_step x t) (ret PyFalse) self.
Proof. reflexivity. Qed.

Lemma named_step_lacking :
  forall (x : value) (name : string) (frame : value) (self : Type_),
    lacks name frame ->
    named_step x (VStr name) frame self = (Return None, self).
Proof.
  intros x name frame self (kvs & -> & Hget).
  unfold named_step, bind, lift. simpl. unfold dict_has. rewrite Hget.
  reflexivity.
Qed.

Lemma named_step_binding :
  forall (x : value) (name : string) (kvs : list (string * value))
         (u : value) (self : Type_),
    dict_get name kvs = Some u ->
    named_step x (VStr name) (VDict kvs) self
      = match fst (valid x u self) with
        | Return r => (Return (Some r), self)
        | Raise e => (Raise e, self)
        end.
Proof.
  intros x name kvs u self Hget.
  unfold named_step, bind, lift. simpl. unfold dict_has. rewrite Hget.
  rewrite (valid_outcome x u self).
  destruct (fst (valid x u self)); reflexivity.
Qed.

(** Frames that lack the name are stepped over, oldest first. *)
Lemma named_loop_skips :
  forall (x : value) (name : string) (older rest : list value)
         (self : Type_),
    Forall (lacks name) older ->
    for_each (older ++ rest) (named_step x (VStr name)) (ret PyFalse) self
      = for_each rest (named_step x (VStr name)) (ret PyFalse) self.
Proof.
  intros x name older rest self Hall.
  induction Hall as [ | frame older Hframe _ IH ]; [ reflexivity | ].
  simpl. unfold bind at 1.
  rewrite (named_step_lacking x name frame self Hframe). exact IH.
Qed.

(** C6, as the claim states it, fails: with [n] bound in two frames, the
    older to [{"oneof": ["abc"]}] and the more recently pushed to
    [{"oneof": ["xyz"]}], [valid_named] evaluates against the older
    binding, and the outcome differs from an evaluation against the most
    recently pushed one. *)
Lemma valid_named_takes_oldest_binding :
  let older := VDict [("n", VDict [("oneof", VList [VStr "abc"])])] in
  let newest := VDict [("n", VDict [("oneof", VList [VStr "xyz"])])] in
  let self := mkType (VStr "any") [older; newest] in
  valid_named (VStr "abc") (VStr "n") self
    = valid (VStr "abc") (VDict [("oneof", VList [VStr "abc"])]) self
  /\ valid_named (VStr "abc") (VStr "n") self
    <> valid (VStr "abc") (VDict [("oneof", VList [VStr "xyz"])]) self.
Proof. split; [ reflexivity | discriminate ]. Qed.

(** C6, amended.  [valid_named] walks the frames from the least recently
    pushed to the most recently pushed: when a frame binds the name and no
    older frame does, the result is that of evaluating the data against
    that frame's binding; when no frame binds it, the result is [False],
    not an error. *)
Theorem valid_named_oldest_frame_first :
  forall (x : value) (name : string) (self : Type_),
    (forall (older newer : list value) (kvs : list (string * value))
            (u : value),
        ctxt self = (older ++ VDict kvs :: newer)%list ->
        Forall (lacks name) older ->
        dict_get name kvs = Some u ->
        valid_named x (VStr name) self = valid x u self)
    /\ (Forall (lacks name) (ctxt self) ->
        valid_named x (VStr name) self = (Return PyFalse, self)).
Proof.
  intros x name self. split.
  - intros older newer kvs u Hctxt Holder Hget.
    rewrite valid_named_loop, Hctxt, (named_loop_skips _ _ _ _ _ Holder).
    simpl. unfold bind at 1.
    rewrite (named_step_binding x name kvs u self Hget).
    rewrite (valid_outcome x u self) at 2.
    destruct (fst (valid x u self)); reflexivity.
  - intros Hall.
    rewrite valid_named_loop.
    rewrite <- (app_nil_r (ctxt self)).
    rewrite (named_loop_skips _ _ _ _ _ Hall). reflexivity.
Qed.

Lemma valid_named_oldest_frame_first_witness :
  valid_named (VStr "abc") (VStr "n")
    (mkType (VStr "any")
       [VDict [("m", VStr "date")];
        VDict [("n", VDict [("oneof", VList [VStr "abc"])])];
        VDict [("n", VDict [("oneof", VList [VStr "xyz"])])]])
  = valid (VStr "abc") (VDict [("oneof", VList [VStr "abc"])])
      (mkType (VStr "any")
         [VDict [("m", VStr "date")];
          VDict [("n", VDict [("oneof", VList [VStr "abc"])])];
          VDict [("n", VDict [("oneof", VList [VStr "xyz"])])]])
  /\ valid_named (VStr "abc") (VStr "n")
       (mkType (VStr "any") [VDict [("m", VStr "date")]])
     = (Return PyFalse, mkType (VStr "any") [VDict [("m", VStr "date")]]).
Proof.
  split.
  - apply (proj1 (valid_named_oldest_frame_first (VStr "abc") "n" _)
             [VDict [("m", VStr "date")]]
             [VDict [("n", VDict [("oneof", VList [VStr "xyz"])])]]
             [("n", VDict [("oneof", VList [VStr "abc"])])]).
    + reflexivity.
    + constructor; [ | constructor ].
      exists [("m", VStr "date")]. split; reflexivity.
    + reflexivity.
  - apply (proj2 (valid_named_oldest_frame_first (VStr "abc") "n" _)).
    constructor; [ | constructor ].
    exists [("m", VStr "date")]. split; reflexivity.
Defined.

(** *** Unions *)

Lemma valid_union_loop :
  forall (x : value) (us : list value) (self : Type_),
    valid_union x (VList us) self
      = for_each us (union_step x) (ret PyFalse) self.
Proof. reflexivity. Qed.

Lemma member_ok_accepts :
  forall (x u : value) (self : Type_),
    member_ok x self u = true <-> accepts x u self.
Proof.
  intros x u self. unfold member_ok, accepts. split.
  - intros H. rewrite (valid_outcome x u self).
    destruct (fst (valid x u self)) as [r | e]; [ | discriminate H ].
    exists r. split; [ reflexivity | exact H ].
  - intros (r & Hv & Ht). rewrite Hv. exact Ht.
Qed.

(** Without a raising member the loop computes a disjunction. *)
Lemma union_loop_without_errors :
  forall (x : value) (us : list value) (self : Type_),
    (forall u, In u us -> returns x u self) ->
    for_each us (union_step x) (ret PyFalse) self
      = (Return (Val (VBool (existsb (member_ok x self) us))), self).
Proof.
  intros x us self. induction us as [ | u us IH ]; intros Hret.
  - reflexivity.
  - destruct (Hret u (or_introl eq_refl)) as (r & Hv).
    simpl. unfold bind at 1. unfold union_step, bind at 1.
    unfold member_ok at 1. rewrite Hv. simpl.
    destruct (truthy r); simpl.
    + reflexivity.
    + apply IH. intros u' Hin. apply Hret. right. exact Hin.
Qed.

Lemma existsb_permutation :
  forall (A : Type) (f : A -> bool) (l l' : list A),
    Permutation l l' -> existsb f l = existsb f l'.
Proof.
  intros A f l l' Hperm.
  induction Hperm as [ | a l l' _ IH | a b l | l l' l'' _ IH1 _ IH2 ]; simpl.
  - reflexivity.
  - rewrite IH. reflexivity.
  - destruct (f a), (f b); reflexivity.
  - rewrite IH1. exact IH2.
Qed.

(** C7.  The claim: [valid] on a [union] is [True] exactly when the data
    is valid against at least one member, whatever the order of the
    members.  The code, at the data [[1, 2]] and the members ["string"]
    and [{"list": "number"}], the second of which the data satisfies:
    [valid_union] raises [NameError] in this order and [TypeError] in the
    other, and never answers [True].  At the data ["abc"] and the members
    [{"oneof": ["abc"]}] and ["date"] it answers [True] in one order and
    raises in the other; and it answers [True] for the data ["zzz"]
    against the single member [{"oneof": ["abc"]}], which the data does
    not satisfy. *)
Theorem valid_union_fails_on_wellformed_members :
  forall self : Type_,
    valid_union (VList [VInt 1; VInt 2])
        (VList [VStr "string"; VDict [("list", VStr "number")]]) self
      = (Raise (NameError "modify"), self)
    /\ valid_union (VList [VInt 1; VInt 2])
        (VList [VDict [("list", VStr "number")]; VStr "string"]) self
      = (Raise TypeError, self)
    /\ valid_union (VStr "abc")
        (VList [VDict [("oneof", VList [VStr "abc"])]; VStr "date"]) self
      = (Return PyTrue, self)
    /\ valid_union (VStr "abc")
        (VList [VStr "date"; VDict [("oneof", VList [VStr "abc"])]]) self
      = (Raise (NameError "modify"), self)
    /\ valid_union (VStr "zzz")
        (VList [VDict [("oneof", VList [VStr "abc"])]]) self
      = (Return PyTrue, self).
Proof. intros self. repeat split. Qed.

(** X22.  When the call of [valid] on no member raises, [valid_union]
    returns a boolean, [True] exactly when that call gives a truthy
    result for at least one member, and the same boolean for every
    permutation of the members. *)
Theorem valid_union_order_irrelevant_without_errors :
  forall (x : value) (us us' : list value) (self : Type_),
    Permutation us us' ->
    (forall u, In u us -> returns x u self) ->
    exists b : bool,
      valid_union x (VList us) self = (Return (Val (VBool b)), self)
      /\ valid_union x (VList us') self = (Return (Val (VBool b)), self)
      /\ (b = true <-> exists u, In u us /\ accepts x u self).
Proof.
  intros x us us' self Hperm Hret.
  exists (existsb (member_ok x self) us). repeat split.
  - rewrite valid_union_loop. apply union_loop_without_errors. exact Hret.
  - rewrite valid_union_loop, (existsb_permutation _ _ _ _ Hperm).
    apply union_loop_without_errors.
    intros u Hin. apply Hret.
    apply (Permutation_in u (Permutation_sym Hperm)). exact Hin.
  - intros H. apply existsb_exists in H. destruct H as (u & Hin & Hok).
    exists u. split; [ exact Hin | apply member_ok_accepts; exact Hok ].
  - intros (u & Hin & Hacc). apply existsb_exists.
    exists u. split; [ exact Hin | apply member_ok_accepts; exact Hacc ].
Qed.

Lemma valid_union_order_irrelevant_without_errors_witness :
  exists b : bool,
    valid_union (VStr "abc")
        (VList [VDict [("oneof", VList [])];
                VDict [("oneof", VList [VStr "abc"])]])
        (init (VStr "any"))
      = (Return (Val (VBool b)), init (VStr "any"))
    /\ valid_union (VStr "abc")
        (VList [VDict [("oneof", VList [VStr "abc"])];
                VDict [("oneof", VList [])]])
        (init (VStr "any"))
      = (Return (Val (VBool b)), init (VStr "any"))
    /\ (b = true <->
        exists u,
          In u [VDict [("oneof", VList [])];
                VDict [("oneof", VList [VStr "abc"])]]
          /\ accepts (VStr "abc") u (init (VStr "any"))).
Proof.
  apply (valid_union_order_irrelevant_without_errors (VStr "abc")
           [VDict [("oneof", VList [])]; VDict [("oneof", VList [VStr "abc"])]]
           [VDict [("oneof", VList [VStr "abc"])]; VDict [("oneof", VList [])]]
           (init (VStr "any"))).
  - apply perm_swap.
  - intros u [ <- | [ <- | [] ] ]; eexists; reflexivity.
Defined.

(** ** Further properties of the code *)

(** *** The dispatcher *)

Lemma valid_by_cases :
  forall (x t : value) (self : Type_),
    valid x t self =
      match resolved t self with
      | VStr s => (Raise (NameError "modify"), self)
      | VDict [(k, v)] => (getattr_str ("valid_" ++ k) x (Val v), self)
      | _ => (Raise AssertionError, self)
      end.
Proof. intros x t self. reflexivity. Qed.

(** X1.  A type that is neither a string nor a mapping with exactly one
    key makes [valid] raise [AssertionError], whatever the data, and
    leaves [self] alone. *)
Theorem valid_asserts_node_shape :
  forall (x t : value) (self : Type_),
    t <> VNone ->
    (forall s, t <> VStr s) ->
    (forall k v, t <> VDict [(k, v)]) ->
    valid x t self = (Raise AssertionError, self).
Proof.
  intros x t self Hnone Hstr Hone.
  destruct t as [ | b | n | s | l | l | kvs ]; try reflexivity.
  - contradiction Hnone. reflexivity.
  - contradiction (Hstr s). reflexivity.
  - destruct kvs as [ | [k v] [ | kv rest ] ]; try reflexivity.
    contradiction (Hone k v). reflexivity.
Qed.

Lemma valid_asserts_node_shape_witness :
  valid (VInt 1) (VDict [("oneof", VList []); ("list", VStr "string")])
        (init (VStr "any"))
    = (Raise AssertionError, init (VStr "any")).
Proof.
  apply valid_asserts_node_shape.
  - discriminate.
  - intros s. discriminate.
  - intros k v. discriminate.
Defined.

(** X2.  On data that is not a string [valid] never returns; the error
    is fixed by the type alone: [NameError] for a string type, [TypeError]
    for a mapping with exactly one key, [AssertionError] for every other
    type; [self] is unchanged. *)
Theorem valid_raises_on_non_string_data :
  forall (x t : value) (self : Type_),
    isinstance_basestring x = false ->
    valid x t self
      = (Raise (match resolved t self with
                | VStr _ => NameError "modify"
                | VDict [(_, _)] => TypeError
                | _ => AssertionError
                end), self).
Proof.
  intros x t self Hx. rewrite valid_by_cases.
  destruct (resolved t self) as [ | b | n | s | l | l | kvs ];
    try reflexivity.
  destruct kvs as [ | [k v] [ | kv rest ] ]; try reflexivity.
  destruct x; try reflexivity. discriminate Hx.
Qed.

Lemma valid_raises_on_non_string_data_witness :
  valid (VInt 42) (VStr "number") (init (VStr "any"))
    = (Raise (NameError "modify"), init (VStr "any"))
  /\ valid (VInt 42) (VDict [("list", VStr "number")]) (init (VStr "any"))
    = (Raise TypeError, init (VStr "any"))
  /\ valid (VInt 42) (VList [VStr "number"]) (init (VStr "any"))
    = (Raise AssertionError, init (VStr "any")).
Proof.
  split; [ | split ].
  - apply (valid_raises_on_non_string_data (VInt 42) (VStr "number")
             (init (VStr "any"))). reflexivity.
  - apply (valid_raises_on_non_string_data (VInt 42)
             (VDict [("list", VStr "number")]) (init (VStr "any"))).
    reflexivity.
  - apply (valid_raises_on_non_string_data (VInt 42)
             (VList [VStr "number"]) (init (VStr "any"))). reflexivity.
Defined.

(** X3.  Whenever [valid] returns, the data is a string, the type is a
    single-key mapping, and the result is that mapping's payload itself,
    or, when the data names an attribute of [str], that attribute of the
    string ['valid_' + k]; [self] is unchanged. *)
Theorem valid_returns_payload_or_attribute :
  forall (x t : value) (self self' : Type_) (r : pyobj),
    valid x t self = (Return r, self') ->
    self' = self
    /\ exists (s k : string) (v : value),
         x = VStr s
         /\ resolved t self = VDict [(k, v)]
         /\ ((str_has_attr s = false /\ r = Val v)
             \/ (str_has_attr s = true /\ r = StrAttr ("valid_" ++ k) s)).
Proof.
  intros x t self self' r H.
  rewrite valid_by_cases in H.
  destruct (resolved t self) as [ | b | n | s | l | l | kvs ];
    try discriminate H.
  destruct kvs as [ | [k v] [ | kv rest ] ]; try discriminate H.
  destruct x as [ | b | n | s | l | l | m ]; try discriminate H.
  simpl in H. destruct (str_has_attr s) eqn:Ha;
    injection H as Hr Hs; subst r self'.
  - split; [ reflexivity | ]. exists s, k, v.
    repeat split. right. split; [ exact Ha | reflexivity ].
  - split; [ reflexivity | ]. exists s, k, v.
    repeat split. left. split; [ exact Ha | reflexivity ].
Qed.

Lemma valid_returns_payload_or_attribute_witness :
  init (VStr "any") = init (VStr "any")
  /\ exists (s k : string) (v : value),
       VStr "abc" = VStr s
       /\ resolved (VDict [("list", VStr "string")]) (init (VStr "any"))
          = VDict [(k, v)]
       /\ ((str_has_attr s = false /\ Val (VStr "string") = Val v)
           \/ (str_has_attr s = true
               /\ Val (VStr "string") = StrAttr ("valid_" ++ k) s)).
Proof.
  apply (valid_returns_payload_or_attribute (VStr "abc")
           (VDict [("list", VStr "string")]) (init (VStr "any"))).
  reflexivity.
Defined.

(** *** Scope frames, further *)

(** X4.  A name whose oldest binding is null is not an error: the data is
    evaluated against the instance's own type [self._type], because
    [valid] reads a [None] type as "use [self._type]". *)
Theorem valid_named_null_binding_means_root_type :
  forall (x : value) (name : string) (self : Type_)
         (older newer : list value) (kvs : list (string * value)),
    ctxt self = (older ++ VDict kvs :: newer)%list ->
    Forall (lacks name) older ->
    dict_get name kvs = Some VNone ->
    valid_named x (VStr name) self = valid x (_type self) self.
Proof.
  intros x name self older newer kvs Hctxt Holder Hget.
  rewrite valid_named_loop, Hctxt, (named_loop_skips _ _ _ _ _ Holder).
  simpl. unfold bind at 1.
  rewrite (named_step_binding x name kvs VNone self Hget).
  assert (Hroot : valid x VNone self = valid x (_type self) self).
  { rewrite (valid_by_cases x VNone), (valid_by_cases x (_type self)).
    unfold resolved. destruct (_type self); reflexivity. }
  rewrite <- Hroot, (valid_outcome x VNone self) at 1.
  rewrite (valid_outcome x VNone self) at 2.
  destruct (fst (valid x VNone self)); reflexivity.
Qed.

Lemma valid_named_null_binding_means_root_type_witness :
  valid_named (VStr "abc") (VStr "n")
    (mkType (VDict [("oneof", VList [VStr "abc"])]) [VDict [("n", VNone)]])
  = valid (VStr "abc") (VDict [("oneof", VList [VStr "abc"])])
      (mkType (VDict [("oneof", VList [VStr "abc"])]) [VDict [("n", VNone)]]).
Proof.
  apply (valid_named_null_binding_means_root_type (VStr "abc") "n"
           (mkType (VDict [("oneof", VList [VStr "abc"])])
                   [VDict [("n", VNone)]])
           [] [] [("n", VNone)]).
  - reflexivity.
  - constructor.
  - reflexivity.
Defined.

Lemma valid_with_bad_length :
  forall (x t : value) (self : Type_),
    py_len t <> Return 2%nat ->
    valid_with x t self
      = (Raise (match py_len t with
                | Return _ => AssertionError
                | Raise e => e
                end), self).
Proof.
  intros x t self Hlen. unfold valid_with, bind, lift.
  destruct (py_len t) as [n | e]; [ | reflexivity ].
  destruct (Nat.eqb n 2) eqn:Hn; [ | reflexivity ].
  apply Nat.eqb_eq in Hn. subst n. contradiction Hlen. reflexivity.
Qed.

(** X5.  A [with] payload whose length is not 2 is refused before any
    frame is pushed: [AssertionError] when it has another length, the
    error of [len] itself when it has none; [self] is as it was. *)
Theorem valid_with_checks_length_before_pushing :
  forall (x t : value) (self : Type_),
    py_len t <> Return 2%nat ->
    valid_with x t self
      = (Raise (match py_len t with
                | Return _ => AssertionError
                | Raise e => e
                end), self).
Proof. exact valid_with_bad_length. Qed.

Lemma valid_with_checks_length_before_pushing_witness :
  valid_with (VStr "abc") (VList [VDict [("n", VStr "number")]])
             (init (VStr "any"))
    = (Raise AssertionError, init (VStr "any"))
  /\ valid_with (VStr "abc") VNone (init (VStr "any"))
    = (Raise TypeError, init (VStr "any")).
Proof.
  split.
  - apply (valid_with_checks_length_before_pushing (VStr "abc")
             (VList [VDict [("n", VStr "number")]]) (init (VStr "any"))).
    discriminate.
  - apply (valid_with_checks_length_before_pushing (VStr "abc") VNone
             (init (VStr "any"))).
    discriminate.
Defined.

(** X6.  On every path [valid_with] leaves [self._type] alone, and the
    stack either as it found it or longer by exactly one frame, the first
    item of its payload; the longer stack goes only with an error. *)
Theorem valid_with_stack_grows_by_at_most_one :
  forall (x t : value) (self : Type_),
    _type (snd (valid_with x t self)) = _type self
    /\ (ctxt (snd (valid_with x t self)) = ctxt self
        \/ exists (defs : value) (e : exn),
             fst (valid_with x t self) = Raise e
             /\ py_getitem t (VInt 0) = Return defs
             /\ ctxt (snd (valid_with x t self)) = (ctxt self ++ [defs])%list).
Proof.
  intros x t self.
  destruct (py_len t) as [n | e] eqn:Hlen.
  2: { rewrite valid_with_bad_length;
         [ | rewrite Hlen; discriminate ].
       split; [ reflexivity | left; reflexivity ]. }
  destruct (Nat.eqb n 2) eqn:Hn.
  2: { rewrite valid_with_bad_length.
       - split; [ reflexivity | left; reflexivity ].
       - rewrite Hlen. intros H. injection H as H. subst n. discriminate Hn. }
  apply Nat.eqb_eq in Hn. subst n.
  destruct (py_getitem t (VInt 0)) as [defs | e] eqn:H0.
  2: { unfold valid_with, bind, lift. rewrite Hlen. simpl. rewrite H0.
       split; [ reflexivity | left; reflexivity ]. }
  destruct (py_getitem t (VInt 1)) as [u | e] eqn:H1.
  2: { unfold valid_with, bind, lift. rewrite Hlen. simpl. rewrite H0, H1.
       split; [ reflexivity | left; reflexivity ]. }
  rewrite (valid_with_unfolded x t defs u self Hlen H0 H1).
  destruct (fst (valid x u (pushed self defs))) as [r | e].
  - split; [ reflexivity | left; reflexivity ].
  - split; [ reflexivity | ]. right. exists defs, e.
    repeat split; reflexivity.
Qed.

(** X7.  For string data that names no attribute of [str], a [with] whose
    inner type is a single-key node returns that node's payload, not a
    boolean, and never consults the bindings: any first item will do. *)
Theorem valid_with_returns_inner_payload :
  forall (s k : string) (defs v : value) (self : Type_),
    str_has_attr s = false ->
    valid_with (VStr s) (VList [defs; VDict [(k, v)]]) self
      = (Return (Val v), self).
Proof.
  intros s k defs v self Hs.
  rewrite (valid_with_unfolded (VStr s) _ defs (VDict [(k, v)]) self);
    try reflexivity.
  rewrite valid_constructed. simpl. rewrite Hs. reflexivity.
Qed.

Lemma valid_with_returns_inner_payload_witness :
  valid_with (VStr "abc")
             (VList [VDict [("n", VStr "number")]; VDict [("named", VStr "n")]])
             (init (VStr "any"))
    = (Return (Val (VStr "n")), init (VStr "any")).
Proof.
  apply valid_with_returns_inner_payload. reflexivity.
Defined.

(** *** Unions, further *)

Lemma union_step_rejecting :
  forall (x u : value) (self : Type_),
    rejects x u self -> union_step x u self = (Return None, self).
Proof.
  intros x u self (r & Hv & Ht).
  unfold union_step, bind. rewrite Hv, Ht. reflexivity.
Qed.

(** Members that return a falsy result are passed over. *)
Lemma union_loop_skips :
  forall (x : value) (before rest : list value) (self : Type_),
    Forall (fun u => rejects x u self) before ->
    for_each (before ++ rest) (union_step x) (ret PyFalse) self
      = for_each rest (union_step x) (ret PyFalse) self.
Proof.
  intros x before rest self Hall.
  induction Hall as [ | u before Hu _ IH ]; [ reflexivity | ].
  simpl. unfold bind at 1. rewrite (union_step_rejecting x u self Hu).
  exact IH.
Qed.

(** X8.  [valid_union] stops at the first member that accepts the data:
    when the members before it all return a falsy result, the answer is
    [True] whatever follows, well-formed or not. *)
Theorem valid_union_stops_at_first_success :
  forall (x u : value) (before after : list value) (self : Type_),
    Forall (fun b => rejects x b self) before ->
    accepts x u self ->
    valid_union x (VList (before ++ u :: after)) self = (Return PyTrue, self).
Proof.
  intros x u before after self Hbefore (r & Hv & Ht).
  rewrite valid_union_loop, (union_loop_skips _ _ _ _ Hbefore).
  simpl. unfold bind at 1. unfold union_step, bind at 1.
  rewrite Hv, Ht. reflexivity.
Qed.

Lemma valid_union_stops_at_first_success_witness :
  valid_union (VStr "abc")
    (VList ([VDict [("oneof", VList [])]]
            ++ VDict [("oneof", VList [VStr "abc"])]
            :: [VDict [("a", VStr "any"); ("b", VStr "any")]; VInt 7]))
    (init (VStr "any"))
  = (Return PyTrue, init (VStr "any")).
Proof.
  apply valid_union_stops_at_first_success.
  - constructor; [ | constructor ].
    exists (Val (VList [])). split; reflexivity.
  - exists (Val (VList [VStr "abc"])). split; reflexivity.
Defined.

(** X9.  The first member whose evaluation raises, the members before it
    having returned falsy results, ends [valid_union] with that very
    error: no later member is tried and nothing is turned into [False]. *)
Theorem valid_union_propagates_first_error :
  forall (x u : value) (before after : list value) (self : Type_) (e : exn),
    Forall (fun b => rejects x b self) before ->
    valid x u self = (Raise e, self) ->
    valid_union x (VList (before ++ u :: after)) self = (Raise e, self).
Proof.
  intros x u before after self e Hbefore Hv.
  rewrite valid_union_loop, (union_loop_skips _ _ _ _ Hbefore).
  simpl. unfold bind at 1. unfold union_step, bind at 1.
  rewrite Hv. reflexivity.
Qed.

Lemma valid_union_propagates_first_error_witness :
  valid_union (VStr "abc")
    (VList ([VDict [("oneof", VList [])]]
            ++ VDict [("a", VStr "any"); ("b", VStr "any")]
            :: [VDict [("oneof", VList [VStr "abc"])]]))
    (init (VStr "any"))
  = (Raise AssertionError, init (VStr "any")).
Proof.
  apply valid_union_propagates_first_error.
  - constructor; [ | constructor ].
    exists (Val (VList [])). split; reflexivity.
  - reflexivity.
Defined.

Lemma valid_union_by_iter :
  forall (x t : value) (self : Type_),
    valid_union x t self =
      match py_iter t with
      | Return us => for_each us (union_step x) (ret PyFalse) self
      | Raise e => (Raise e, self)
      end.
Proof.
  intros x t self. unfold valid_union, bind at 1. unfold lift.
  destruct (py_iter t); reflexivity.
Qed.

Lemma union_loop_boolean :
  forall (x : value) (us : list value) (self : Type_) (r : pyobj),
    fst (for_each us (union_step x) (ret PyFalse) self) = Return r ->
    r = PyTrue \/ r = PyFalse.
Proof.
  intros x us self r. induction us as [ | u us IH ]; simpl.
  - intros H. injection H as H. right. symmetry. exact H.
  - unfold bind at 1. unfold union_step, bind at 1.
    rewrite (valid_outcome x u self).
    destruct (fst (valid x u self)) as [ r' | e ]; [ | discriminate ].
    destruct (truthy r'); simpl.
    + intros H. injection H as H. left. symmetry. exact H.
    + exact IH.
Qed.

(** X10.  Unlike [valid], [valid_union] returns nothing but [True] or
    [False], whatever its payload is: a list, a tuple, a string (its
    characters are the members) or a mapping (its keys are). *)
Theorem valid_union_returns_booleans :
  forall (x t : value) (self self' : Type_) (r : pyobj),
    valid_union x t self = (Return r, self') ->
    r = PyTrue \/ r = PyFalse.
Proof.
  intros x t self self' r H.
  rewrite valid_union_by_iter in H.
  destruct (py_iter t) as [ us | e ]; [ | discriminate H ].
  apply (union_loop_boolean x us self). rewrite H. reflexivity.
Qed.

Lemma valid_union_returns_booleans_witness :
  Val (VBool false) = PyTrue \/ Val (VBool false) = PyFalse.
Proof.
  apply (valid_union_returns_booleans (VStr "abc")
           (VTuple [VDict [("oneof", VList [])]])
           (init (VStr "any")) (init (VStr "any"))).
  reflexivity.
Defined.

(** X11.  A union payload that is a non-empty string or a non-empty
    mapping is walked character by character or key by key; each item is a
    string, so the first one already raises the [NameError] of [valid] on
    a string type.  A payload without iteration raises [TypeError]. *)
Theorem valid_union_on_non_list_payload :
  forall (x t : value) (self : Type_),
    is_list_or_tuple t = false ->
    py_len t <> Return 0%nat ->
    valid_union x t self
      = (Raise (match py_len t with
                | Return _ => NameError "modify"
                | Raise e => e
                end), self).
Proof.
  intros x t self Hseq Hlen.
  destruct t as [ | b | n | s | l | l | kvs ];
    try reflexivity; try discriminate Hseq.
  - destruct s as [ | c s ]; [ contradiction Hlen; reflexivity | reflexivity ].
  - destruct kvs as [ | [k v] kvs ];
      [ contradiction Hlen; reflexivity | reflexivity ].
Qed.

Lemma valid_union_on_non_list_payload_witness :
  valid_union (VStr "abc")
              (VDict [("a", VStr "number"); ("b", VStr "string")])
              (init (VStr "any"))
    = (Raise (NameError "modify"), init (VStr "any"))
  /\ valid_union (VStr "abc") (VInt 3) (init (VStr "any"))
    = (Raise TypeError, init (VStr "any")).
Proof.
  split.
  - apply (valid_union_on_non_list_payload (VStr "abc")
             (VDict [("a", VStr "number"); ("b", VStr "string")])
             (init (VStr "any"))); [ reflexivity | discriminate ].
  - apply (valid_union_on_non_list_payload (VStr "abc") (VInt 3)
             (init (VStr "any"))); [ reflexivity | discriminate ].
Defined.

(** *** Loops *)

Lemma for_each_cons :
  forall (A : Type) (a : A) (rest : list A) (body : A -> M (option pyobj))
         (after : M pyobj) (self : Type_),
    for_each (a :: rest) body after self =
      match body a self with
      | (Return (Some v), self') => (Return v, self')
      | (Return None, self') => for_each rest body after self'
      | (Raise e, self') => (Raise e, self')
      end.
Proof.
  intros A a rest body after self. simpl. unfold bind.
  destruct (body a self) as [ [ [ v | ] | e ] self' ]; reflexivity.
Qed.

(** *** Enumerations *)

Lemma py_eq_string :
  forall (s : string) (v : value), py_eq (VStr s) v = true <-> v = VStr s.
Proof.
  intros s v. destruct v as [ | b | n | s' | l | l | kvs ]; simpl;
    try (split; intros H; discriminate H).
  rewrite String.eqb_eq. split; intros H.
  - subst s'. reflexivity.
  - injection H as H. symmetry. exact H.
Qed.

(** X16.  For string data and a list payload [valid_oneof] is exact
    membership: [True] when the list holds that very string, [False]
    otherwise, whatever else the list holds. *)
Theorem valid_oneof_is_list_membership :
  forall (s : string) (l : list value) (self : Type_),
    exists b : bool,
      valid_oneof (VStr s) (VList l) self = (Return (Val (VBool b)), self)
      /\ (b = true <-> In (VStr s) l).
Proof.
  intros s l self. exists (existsb (py_eq (VStr s)) l).
  split; [ reflexivity | ].
  rewrite existsb_exists. split.
  - intros (v & Hin & Heq). apply py_eq_string in Heq. subst v. exact Hin.
  - intros Hin. exists (VStr s). split; [ exact Hin | ].
    apply py_eq_string. reflexivity.
Qed.

Lemma substring_prefix_split :
  forall (n : nat) (t s : string),
    substring 0 n t = s -> String.length s = n ->
    exists post, t = s ++ post.
Proof.
  induction n as [ | n IH ]; intros t s Hsub Hlen.
  - destruct s; [ | discriminate Hlen ]. exists t. reflexivity.
  - destruct t as [ | c t ]; simpl in Hsub.
    + subst s. discriminate Hlen.
    + subst s. simpl in Hlen. injection Hlen as Hlen.
      destruct (IH t (substring 0 n t) eq_refl Hlen) as (post & Hpost).
      exists post. simpl. rewrite <- Hpost. reflexivity.
Qed.

Lemma substring_split :
  forall (m n : nat) (t s : string),
    substring m n t = s -> String.length s = n ->
    exists pre post, t = pre ++ s ++ post.
Proof.
  induction m as [ | m IH ]; intros n t s Hsub Hlen.
  - destruct (substring_prefix_split n t s Hsub Hlen) as (post & Hpost).
    exists "", post. exact Hpost.
  - destruct t as [ | c t ]; simpl in Hsub.
    + subst s. exists "", "". reflexivity.
    + destruct (IH n t s Hsub Hlen) as (pre & post & Ht).
      exists (String c pre), post. simpl. rewrite <- Ht. reflexivity.
Qed.

Lemma substring_of_middle :
  forall pre s post : string,
    substring (String.length pre) (String.length s) (pre ++ s ++ post) = s.
Proof.
  intros pre s post. induction pre as [ | c pre IH ]; simpl.
  - induction s as [ | c s IHs ]; simpl.
    + destruct post; reflexivity.
    + rewrite IHs. reflexivity.
  - exact IH.
Qed.

Lemma index_finds_substring :
  forall s t : string,
    (exists m, String.index 0 s t = Some m)
    <-> exists pre post, t = pre ++ s ++ post.
Proof.
  intros s t. split.
  - intros (m & Hidx).
    apply (substring_split m (String.length s) t s); [ | reflexivity ].
    apply (index_correct1 0 m s t Hidx).
  - intros (pre & post & Ht).
    destruct (String.index 0 s t) as [ m | ] eqn:Hidx; [ exists m; reflexivity | ].
    exfalso. destruct s as [ | c s ].
    + apply index_correct4 in Hidx. lia.
    + apply (index_correct3 0 (String.length pre) _ _ Hidx);
        [ discriminate | lia | ].
      rewrite Ht. apply substring_of_middle.
Qed.

(** X17.  When the payload of [oneof] is a string instead of a list,
    [valid_oneof] is a substring test: it accepts exactly the strings that
    occur somewhere inside the payload, the empty string among them. *)
Theorem valid_oneof_on_string_payload_is_substring_test :
  forall (s t : string) (self : Type_),
    exists b : bool,
      valid_oneof (VStr s) (VStr t) self = (Return (Val (VBool b)), self)
      /\ (b = true <-> exists pre post, t = pre ++ s ++ post).
Proof.
  intros s t self.
  exists (match String.index 0 s t with Some _ => true | None => false end).
  split; [ reflexivity | ].
  rewrite <- index_finds_substring.
  destruct (String.index 0 s t) as [ m | ].
  - split; [ intros _; exists m; reflexivity | reflexivity ].
  - split; [ discriminate | intros (m & H); discriminate H ].
Qed.

(** X18.  [valid_oneof] raises in one situation only, string data with a
    payload that is no container ([None], a boolean, a number), and the
    error is [TypeError]; data that is not a string is answered [False]
    before the payload is looked at. *)
Theorem valid_oneof_raises_only_on_scalar_payload :
  forall (x t : value) (self : Type_),
    (isinstance_basestring x = false ->
       valid_oneof x t self = (Return PyFalse, self))
    /\ (forall e, fst (valid_oneof x t self) = Raise e -> e = TypeError)
    /\ (fst (valid_oneof x t self) = Raise TypeError
        <-> isinstance_basestring x = true /\ py_iter t = Raise TypeError).
Proof.
  intros x t self.
  destruct x as [ | b | n | s | l | l | m ];
    try (split; [ reflexivity
                | split; [ intros e H; discriminate H
                         | split; [ intros H; discriminate H
                                  | intros (H & _); discriminate H ] ] ]).
  split; [ discriminate | ].
  destruct t as [ | b | n | s' | l | l | kvs ]; simpl;
    (split; [ intros e H; try discriminate H;
              try (injection H as H; symmetry; exact H)
            | split; [ intros H; try discriminate H;
                       split; reflexivity
                     | intros (_ & H); try discriminate H; reflexivity ] ]).
Qed.

(** *** Numbers and the pattern-based atomic types *)

(** X19.  [valid_number] counts booleans as numbers, and where another
    method would answer [False] it raises: [None], a list, a tuple or a
    mapping takes [float] to a [TypeError] that the [except ValueError]
    clause does not catch.  No other value makes it raise, and a string is
    accepted exactly when [float] parses it. *)
Theorem valid_number_raises_on_non_scalars :
  forall (float_parses : string -> bool) (x : value) (self : Type_),
    (forall b, valid_number float_parses (VBool b) self = (Return PyTrue, self))
    /\ (forall s, valid_number float_parses (VStr s) self
                  = (Return (Val (VBool (float_parses s))), self))
    /\ (forall e, fst (valid_number float_parses x self) = Raise e ->
                  e = TypeError)
    /\ (fst (valid_number float_parses x self) = Raise TypeError
        <-> x = VNone \/ is_list_or_tuple x = true \/ is_dict x = true).
Proof.
  intros float_parses x self.
  split; [ intros b; reflexivity | ].
  split; [ intros s; unfold valid_number; simpl;
           destruct (float_parses s); reflexivity | ].
  unfold valid_number, ret, raise.
  destruct x as [ | b | n | s | l | l | kvs ]; simpl.
  - split; [ intros e H; injection H as H; symmetry; exact H | ].
    split; [ intros _; left; reflexivity | reflexivity ].
  - split; [ intros e H; discriminate H | ].
    split; [ intros H; discriminate H
           | intros [ H | [ H | H ] ]; discriminate H ].
  - split; [ intros e H; discriminate H | ].
    split; [ intros H; discriminate H
           | intros [ H | [ H | H ] ]; discriminate H ].
  - destruct (float_parses s); simpl;
      (split; [ intros e H; discriminate H | ]);
      (split; [ intros H; discriminate H
              | intros [ H | [ H | H ] ]; discriminate H ]).
  - split; [ intros e H; injection H as H; symmetry; exact H | ].
    split; [ intros _; right; left; reflexivity | reflexivity ].
  - split; [ intros e H; injection H as H; symmetry; exact H | ].
    split; [ intros _; right; left; reflexivity | reflexivity ].
  - split; [ intros e H; injection H as H; symmetry; exact H | ].
    split; [ intros _; right; right; reflexivity | reflexivity ].
Qed.

(** X20.  [valid_date], [valid_time] and [valid_datetime] behave alike on
    every value and never answer [True]: a value that is not a string gets
    [False], and a string gets the [NameError] of the unbound [re], before
    its text is ever compared with a pattern. *)
Theorem pattern_checks_never_accept :
  forall (x : value) (self : Type_),
    valid_date x self = valid_datetime x self
    /\ valid_time x self = valid_datetime x self
    /\ valid_datetime x self
       = (if isinstance_basestring x then Raise (NameError "re")
          else Return PyFalse, self)
    /\ fst (valid_datetime x self) <> Return PyTrue.
Proof.
  intros x self.
  destruct x as [ | b | n | s | l | l | kvs ];
    (split; [ reflexivity
            | split; [ reflexivity
                     | split; [ reflexivity | discriminate ] ] ]).
Qed.

(** *** What may change [self] *)

Lemma for_each_keeps_self :
  forall (A : Type) (body : A -> M (option pyobj)) (after : M pyobj),
    (forall a self, snd (body a self) = self) ->
    (forall self, snd (after self) = self) ->
    forall (items : list A) (self : Type_),
      snd (for_each items body after self) = self.
Proof.
  intros A body after Hbody Hafter items.
  induction items as [ | a items IH ]; intros self.
  - apply Hafter.
  - rewrite for_each_cons. specialize (Hbody a self).
    destruct (body a self) as [ [ [ v | ] | e ] self' ]; simpl in *;
      subst self'; try reflexivity.
    apply IH.
Qed.

Lemma bind_keeps_self :
  forall (A B : Type) (c : M A) (k : A -> M B) (self : Type_),
    snd (c self) = self ->
    (forall a, snd (k a self) = self) ->
    snd (bind c k self) = self.
Proof.
  intros A B c k self Hc Hk. unfold bind.
  destruct (c self) as [ [ a | e ] self' ]; simpl in *; subst self'.
  - apply Hk.
  - reflexivity.
Qed.

Lemma if_keeps_self :
  forall (A : Type) (b : bool) (c d : M A) (self : Type_),
    snd (c self) = self -> snd (d self) = self ->
    snd ((if b then c else d) self) = self.
Proof. intros A b c d self Hc Hd. destruct b; assumption. Qed.

Ltac keeps_self :=
  repeat first
    [ reflexivity
    | apply valid_keeps_self
    | apply if_keeps_self
    | apply bind_keeps_self
    | apply for_each_keeps_self
    | intro ].

(** X21.  Only [valid_with] changes the instance.  [valid] and the
    methods for strings, dates, times, datetimes, numbers, enumerations,
    mappings, discriminated unions, unions and names leave [self], and
    with it the scope stack, exactly as they found it, whether they return
    or raise; [valid_with] leaves [self] changed whenever its inner
    evaluation raises. *)
Theorem only_valid_with_changes_self :
  forall (float_parses : string -> bool) (x t : value) (self : Type_),
    (snd (valid x t self) = self
     /\ snd (valid_string x t self) = self
     /\ snd (valid_date x self) = self
     /\ snd (valid_time x self) = self
     /\ snd (valid_datetime x self) = self
     /\ snd (valid_number float_parses x self) = self
     /\ snd (valid_oneof x t self) = self
     /\ snd (valid_dict x t self) = self
     /\ snd (valid_d_u x t self) = self
     /\ snd (valid_union x t self) = self
     /\ snd (valid_named x t self) = self)
    /\ (forall (defs u : value) (e : exn),
          py_len t = Return 2%nat ->
          py_getitem t (VInt 0) = Return defs ->
          py_getitem t (VInt 1) = Return u ->
          valid x u (pushed self defs) = (Raise e, pushed self defs) ->
          snd (valid_with x t self) <> self).
Proof.
  intros float_parses x t self. split.
  - split; [ apply valid_keeps_self | ].
    split; [ rewrite valid_string_always_false; reflexivity | ].
    split; [ destruct x; reflexivity | ].
    split; [ destruct x; reflexivity | ].
    split; [ destruct x; reflexivity | ].
    split.
    { unfold valid_number. destruct (isinstance_number x); [ reflexivity | ].
      destruct x; try reflexivity. destruct (float_parses s); reflexivity. }
    split; [ unfold valid_oneof; keeps_self | ].
    split; [ destruct x; reflexivity | ].
    split; [ destruct x; reflexivity | ].
    split; [ unfold valid_union; keeps_self | ].
    unfold valid_named; keeps_self.
  - intros defs u e Hlen H0 H1 Hin.
    rewrite (valid_with_raise_keeps_frame x t defs u self e Hlen H0 H1 Hin).
    simpl. intros H. apply (push_changes_stack self defs).
    rewrite H. reflexivity.
Qed.

Lemma only_valid_with_changes_self_witness :
  snd (valid_with (VInt 5)
         (VList [VDict [("n", VStr "number")]; named_ "n"])
         (init (VStr "any")))
    <> init (VStr "any").
Proof.
  apply (proj2 (only_valid_with_changes_self (fun _ => false) (VInt 5)
                  (VList [VDict [("n", VStr "number")]; named_ "n"])
                  (init (VStr "any")))
           (VDict [("n", VStr "number")]) (named_ "n") TypeError);
    reflexivity.
Defined.

(** *** The regex rule on its own *)

(** X23.  Called directly, [valid_string] answers [False] for every data
    value and every pattern and never raises: a value that is not a
    string fails the type test, and for a string the [NameError] of the
    unbound [re] is swallowed by the bare [except]. *)
Theorem valid_string_never_accepts_never_raises :
  forall (x t : value) (self : Type_),
    valid_string x t self = (Return PyFalse, self).
Proof. exact valid_string_always_false. Qed.
